(** * django_messages: the message table, its manager and the compose form

    A shallow embedding of [django_messages/models.py] and
    [django_messages/forms.py].  The relational table behind the concrete
    message model is a finite map from primary keys to rows; the ORM calls the
    two files make ([filter], [|], [count], [save]) are embedded with the
    behaviour the framework gives them, and the form's [save] runs in a small
    state-and-exception monad over the table, the clock and the notification
    service.  The class [Message] is abstract: its manager methods and its
    [save] are embedded as they run on a concrete subclass, and the two places
    that name the class itself, [inbox_count_for] and [ComposeForm.save], as
    they run on the abstract class. *)

From stdpp Require Import gmap strings list fin_maps sorting.

(** ** Principals and messages *)

(** A sender or recipient: any model instance, identified by the primary key
    of its content type and its own primary key ([user.id]). *)
Record Principal := {
  p_content_type : Z;   (* ContentType.objects.get_for_model(user) *)
  p_id : Z              (* user.id *)
}.

#[global] Instance Principal_eq_dec : EqDecision Principal.
Proof. solve_decision. Defined.

(** [class Message(models.Model)]: one field per column of models.py, nullable
    columns as [option]; [id] is [None] until the row is first saved. *)
Record Message := {
  id : option Z;
  subject : string;
  body : string;
  r_content_type : Z;
  r_object_id : Z;
  s_content_type : Z;
  s_object_id : Z;
  parent_msg : option Z;
  sent_at : option Z;
  read_at : option Z;
  replied_at : option Z;
  sender_deleted_at : option Z;
  recipient_deleted_at : option Z
}.

#[global] Instance Message_eq_dec : EqDecision Message.
Proof. solve_decision. Defined.

(** [sender = GenericForeignKey(ct_field='s_content_type', fk_field='s_object_id')]
    and likewise [recipient]: accessors computed from two columns. *)
Definition sender (m : Message) : Principal :=
  {| p_content_type := s_content_type m; p_id := s_object_id m |}.

Definition recipient (m : Message) : Principal :=
  {| p_content_type := r_content_type m; p_id := r_object_id m |}.

(** [Message.new]: whether the recipient has not read the message yet. *)
Definition new (m : Message) : bool :=
  match read_at m with Some _ => false | None => true end.

(** [Message.replied]. *)
Definition replied (m : Message) : bool :=
  match replied_at m with Some _ => true | None => false end.

(** Attribute assignments used by the two files. *)
Definition set_id (v : option Z) (m : Message) : Message :=
  {| id := v; subject := subject m; body := body m;
     r_content_type := r_content_type m; r_object_id := r_object_id m;
     s_content_type := s_content_type m; s_object_id := s_object_id m;
     parent_msg := parent_msg m; sent_at := sent_at m; read_at := read_at m;
     replied_at := replied_at m; sender_deleted_at := sender_deleted_at m;
     recipient_deleted_at := recipient_deleted_at m |}.

Definition set_sent_at (v : option Z) (m : Message) : Message :=
  {| id := id m; subject := subject m; body := body m;
     r_content_type := r_content_type m; r_object_id := r_object_id m;
     s_content_type := s_content_type m; s_object_id := s_object_id m;
     parent_msg := parent_msg m; sent_at := v; read_at := read_at m;
     replied_at := replied_at m; sender_deleted_at := sender_deleted_at m;
     recipient_deleted_at := recipient_deleted_at m |}.

Definition set_replied_at (v : option Z) (m : Message) : Message :=
  {| id := id m; subject := subject m; body := body m;
     r_content_type := r_content_type m; r_object_id := r_object_id m;
     s_content_type := s_content_type m; s_object_id := s_object_id m;
     parent_msg := parent_msg m; sent_at := sent_at m; read_at := read_at m;
     replied_at := v; sender_deleted_at := sender_deleted_at m;
     recipient_deleted_at := recipient_deleted_at m |}.

Definition set_recipient_deleted_at (v : option Z) (m : Message) : Message :=
  {| id := id m; subject := subject m; body := body m;
     r_content_type := r_content_type m; r_object_id := r_object_id m;
     s_content_type := s_content_type m; s_object_id := s_object_id m;
     parent_msg := parent_msg m; sent_at := sent_at m; read_at := read_at m;
     replied_at := replied_at m; sender_deleted_at := sender_deleted_at m;
     recipient_deleted_at := v |}.

(** ** The table *)

(** The rows of the message table by primary key, and the next value of its
    auto-increment key. *)
Record Table := {
  rows : gmap Z Message;
  next_pk : Z
}.

Definition table_rows (t : Table) : list Message := (map_to_list (rows t)).*2.

(** Keys handed out by the auto-increment column are positive and unused. *)
Definition wf_table (t : Table) : Prop :=
  (1 ≤ next_pk t)%Z ∧ map_Forall (λ k _, (k < next_pk t)%Z) (rows t).

(** ** Exceptions *)

Inductive Exn :=
  | NameError (name : string)
  | KeyError (key : string)
  | AttributeError (name : string)
  | FieldError (name : string)
  | TypeError (what : string)
  | DatabaseError (table : string).

Inductive Result (A : Type) :=
  | Ok (a : A)
  | Raise (e : Exn).
Arguments Ok {A} a.
Arguments Raise {A} e.

Definition Result_bind {A B} (r : Result A) (k : A → Result B) : Result B :=
  match r with
  | Ok a => k a
  | Raise e => Raise e
  end.

(** ** Query sets *)

Inductive Column :=
  | c_id | c_subject | c_body
  | c_r_content_type | c_r_object_id
  | c_s_content_type | c_s_object_id
  | c_parent_msg | c_sent_at | c_read_at | c_replied_at
  | c_sender_deleted_at | c_recipient_deleted_at.

Inductive Value :=
  | VNull
  | VInt (z : Z)
  | VText (s : string)
  | VInstance (p : Principal).

#[global] Instance Value_eq_dec : EqDecision Value.
Proof. solve_decision. Defined.

Definition nullable (o : option Z) : Value :=
  match o with Some z => VInt z | None => VNull end.

Definition column_value (c : Column) (m : Message) : Value :=
  match c with
  | c_id => nullable (id m)
  | c_subject => VText (subject m)
  | c_body => VText (body m)
  | c_r_content_type => VInt (r_content_type m)
  | c_r_object_id => VInt (r_object_id m)
  | c_s_content_type => VInt (s_content_type m)
  | c_s_object_id => VInt (s_object_id m)
  | c_parent_msg => nullable (parent_msg m)
  | c_sent_at => nullable (sent_at m)
  | c_read_at => nullable (read_at m)
  | c_replied_at => nullable (replied_at m)
  | c_sender_deleted_at => nullable (sender_deleted_at m)
  | c_recipient_deleted_at => nullable (recipient_deleted_at m)
  end.

(** The fields of [Message] a lookup can name: its database columns.  The two
    [GenericForeignKey] accessors [sender] and [recipient] are not columns and
    are not among them; the ORM refuses a lookup through them. *)
Definition concrete_fields : list (string * Column) :=
  [ ("id", c_id); ("subject", c_subject); ("body", c_body);
    ("r_content_type", c_r_content_type); ("r_object_id", c_r_object_id);
    ("s_content_type", c_s_content_type); ("s_object_id", c_s_object_id);
    ("parent_msg", c_parent_msg); ("sent_at", c_sent_at);
    ("read_at", c_read_at); ("replied_at", c_replied_at);
    ("sender_deleted_at", c_sender_deleted_at);
    ("recipient_deleted_at", c_recipient_deleted_at) ].

Fixpoint assoc {A} (name : string) (l : list (string * A)) : option A :=
  match l with
  | [] => None
  | (k, v) :: l' => if decide (k = name) then Some v else assoc name l'
  end.

Definition resolve_field (name : string) : Result Column :=
  match assoc name concrete_fields with
  | Some c => Ok c
  | None => Raise (FieldError name)
  end.

(** A keyword argument of [filter]: [name=v] or [name__isnull=b]. *)
Inductive Lookup :=
  | exact (name : string) (v : Value)
  | isnull (name : string) (b : bool).

(** The WHERE clause of a query set. *)
Inductive Cond :=
  | CTrue
  | CExact (c : Column) (v : Value)
  | CIsNull (c : Column) (b : bool)
  | CAnd (a b : Cond)
  | COr (a b : Cond).

Record QuerySet := { q_where : Cond }.

Definition is_null (v : Value) : bool :=
  match v with VNull => true | _ => false end.

(** Whether a row satisfies the clause.  [col = v] is never true of a NULL
    column. *)
Fixpoint holds (c : Cond) (m : Message) : bool :=
  match c with
  | CTrue => true
  | CExact col v => negb (is_null v) && bool_decide (column_value col m = v)
  | CIsNull col b => bool_decide (is_null (column_value col m) = b)
  | CAnd a b => holds a m && holds b m
  | COr a b => holds a m || holds b m
  end.

Definition compile_lookup (l : Lookup) : Result Cond :=
  match l with
  | exact name v => Result_bind (resolve_field name) (λ c, Ok (CExact c v))
  | isnull name b => Result_bind (resolve_field name) (λ c, Ok (CIsNull c b))
  end.

(** [QuerySet.filter] with keyword lookups: the lookups are resolved when [filter] is
    called and are added to the clause as a conjunction. *)
Fixpoint add_lookups (ls : list Lookup) (c : Cond) : Result Cond :=
  match ls with
  | [] => Ok c
  | l :: ls' =>
      Result_bind (compile_lookup l) (λ cl, add_lookups ls' (CAnd c cl))
  end.

Definition QuerySet_filter (ls : list Lookup) (q : QuerySet) : Result QuerySet :=
  Result_bind (add_lookups ls (q_where q)) (λ c, Ok {| q_where := c |}).

(** [self.filter(...)] on the manager: a filter of the whole table. *)
Definition Manager_filter (ls : list Lookup) : Result QuerySet :=
  QuerySet_filter ls {| q_where := CTrue |}.

(** [qs1 | qs2]: one query whose clause is the disjunction. *)
Definition QuerySet_or (a b : QuerySet) : QuerySet :=
  {| q_where := COr (q_where a) (q_where b) |}.

(** [Meta.ordering = ['sent_at']], NULL first. *)
Definition sent_at_le (a b : Message) : Prop :=
  match sent_at a, sent_at b with
  | None, _ => True
  | Some _, None => False
  | Some x, Some y => (x ≤ y)%Z
  end.

#[global] Instance sent_at_le_dec a b : Decision (sent_at_le a b).
Proof. unfold sent_at_le. destruct (sent_at a), (sent_at b); apply _. Defined.

(** Evaluating a query set against the table. *)
Definition QuerySet_rows (q : QuerySet) (t : Table) : list Message :=
  merge_sort sent_at_le (filter (λ m, holds (q_where q) m = true) (table_rows t)).

(** ** [MessageManager] *)

Definition inbox_for (user : Principal) : Result QuerySet :=
  Manager_filter
    [ exact "r_object_id" (VInt (p_id user));
      exact "r_content_type" (VInt (p_content_type user));
      isnull "recipient_deleted_at" true ].

Definition outbox_for (user : Principal) : Result QuerySet :=
  Manager_filter
    [ exact "s_object_id" (VInt (p_id user));
      exact "s_content_type" (VInt (p_content_type user));
      isnull "sender_deleted_at" true ].

Definition trash_for (user : Principal) : Result QuerySet :=
  Result_bind
    (Manager_filter
       [ exact "recipient" (VInstance user);
         isnull "recipient_deleted_at" false ])
    (λ received,
      Result_bind
        (Manager_filter
           [ exact "sender" (VInstance user);
             isnull "sender_deleted_at" false ])
        (λ sent, Ok (QuerySet_or received sent))).

(** [inbox_count_for] names the class [Message] itself; it is defined below,
    with what the framework does with an abstract class. *)

(** ** The world a request runs in *)

(** A value a Python name can be bound to in [ComposeForm.save]. *)
Inductive PyValue :=
  | PyNone
  | PyPrincipal (p : Principal)
  | PyMessage (m : Message)
  | PyText (s : string)
  | PyList (l : list Message)
  | PyOpaque.            (* a module, class, function or form instance *)

(** One call [notification.send(users, label, {'message': msg})]. *)
Record Notice := {
  n_users : list PyValue;
  n_label : string;
  n_message : Message
}.

Record World := {
  db : Table;
  clock : nat → Z;                (* successive readings of timezone.now() *)
  ticks : nat;                    (* how many readings were taken *)
  journal : list (Z * Message);   (* rows written to the table, oldest first *)
  sent : list Notice              (* calls of notification.send, oldest first *)
}.

(** Computations that read and write the world and may raise; what was
    written before an exception stays written. *)
Definition M (A : Type) : Type := World → Result A * World.

Definition ret {A} (a : A) : M A := λ w, (Ok a, w).

Definition raise {A} (e : Exn) : M A := λ w, (Raise e, w).

Definition bind {A B} (c : M A) (k : A → M B) : M B :=
  λ w, match c w with
       | (Ok a, w') => k a w'
       | (Raise e, w') => (Raise e, w')
       end.

Notation "x <~ c ; k" := (bind c (λ x, k))
  (at level 20, c at level 100, k at level 200, only parsing).

Definition lift {A} (r : Result A) : M A := λ w, (r, w).

(** [timezone.now()]. *)
Definition now : M Z :=
  λ w, (Ok (clock w (ticks w)),
        {| db := db w; clock := clock w; ticks := S (ticks w);
           journal := journal w; sent := sent w |}).

(** [notification.send]. *)
Definition notification_send (users : list PyValue) (label : string)
    (msg : Message) : M unit :=
  λ w, (Ok tt,
        {| db := db w; clock := clock w; ticks := ticks w;
           journal := journal w;
           sent := sent w ++ [{| n_users := users; n_label := label;
                                 n_message := msg |}] |}).

(** ** [Message.save] *)

(** [not self.id]: true of [None] and of [0]. *)
Definition not_id (o : option Z) : bool :=
  match o with
  | None => true
  | Some k => bool_decide (k = 0%Z)
  end.

(** [models.Model.save]: a row without a key is inserted under the next
    auto-increment key, which the instance then carries; a row with a key
    replaces the row under that key, or is inserted under it. *)
Definition Model_save (m : Message) : M Message :=
  λ w,
    let pk := match id m with Some k => k | None => next_pk (db w) end in
    let m' := set_id (Some pk) m in
    (Ok m',
     {| db := {| rows := <[pk := m']> (rows (db w));
                 next_pk := Z.max (next_pk (db w)) (pk + 1) |};
        clock := clock w; ticks := ticks w;
        journal := journal w ++ [(pk, m')];
        sent := sent w |}).

Definition Message_save (self : Message) : M Message :=
  self <~ (if not_id (id self)
           then t <~ now ; ret (set_sent_at (Some t) self)
           else ret self) ;
  Model_save self.

(** ** Settings and the notification collaborator *)

Record Settings := {
  INSTALLED_APPS : list string;
  DJANGO_MESSAGES_NOTIFY : option bool   (* [None]: the setting is absent *)
}.

(** The module-level name [notification] of forms.py: the notification app
    when it is installed and notifications are not switched off, else [None];
    the boolean is its truth value. *)
Definition notification (cfg : Settings) : bool :=
  bool_decide ("notification" ∈ INSTALLED_APPS cfg)
  && default true (DJANGO_MESSAGES_NOTIFY cfg).

(** ** [ComposeForm] *)

Record CharField := {
  max_length : option nat;
  required : bool
}.

Inductive ErrorCode := err_required | err_max_length.

#[global] Instance ErrorCode_eq_dec : EqDecision ErrorCode.
Proof. solve_decision. Defined.

(** [CharField.clean]: a missing or empty value is the empty string, which a
    required field refuses; a non-empty value longer than [max_length] is
    refused by the length validator.  The value is taken as submitted (it is
    not stripped), and a character of the model stands for one character of
    the text. *)
Definition CharField_clean (f : CharField) (value : option string)
    : ErrorCode + string :=
  let v := default "" value in
  if bool_decide (v = "") then
    if required f then inl err_required else inr v
  else
    match max_length f with
    | Some n => if (n <? String.length v)%nat then inl err_max_length
                else inr v
    | None => inr v
    end.

(** [subject = forms.CharField(max_length=120)] and
    [body = forms.CharField(widget=Textarea)]. *)
Definition ComposeForm_fields : list (string * CharField) :=
  [ ("subject", {| max_length := Some 120%nat; required := true |});
    ("body", {| max_length := None; required := true |}) ].

(** A bound form: the submitted data, and once it was cleaned the values that
    passed and the errors of those that did not. *)
Record ComposeForm := {
  data : gmap string string;
  cleaned_data : option (gmap string string);
  errors : gmap string ErrorCode
}.

Definition bound_form (d : gmap string string) : ComposeForm :=
  {| data := d; cleaned_data := None; errors := ∅ |}.

Fixpoint clean_fields (fields : list (string * CharField))
    (d : gmap string string)
    : gmap string string * gmap string ErrorCode :=
  match fields with
  | [] => (∅, ∅)
  | (name, f) :: rest =>
      let '(cd, errs) := clean_fields rest d in
      match CharField_clean f (d !! name) with
      | inr v => (<[name := v]> cd, errs)
      | inl e => (cd, <[name := e]> errs)
      end
  end.

Definition full_clean (self : ComposeForm) : ComposeForm :=
  let '(cd, errs) := clean_fields ComposeForm_fields (data self) in
  {| data := data self; cleaned_data := Some cd; errors := errs |}.

Definition is_valid (self : ComposeForm) : bool :=
  bool_decide (errors (full_clean self) = ∅).

(** [self.cleaned_data[key]]. *)
Definition cleaned (self : ComposeForm) (key : string) : M string :=
  match cleaned_data self with
  | None => raise (AttributeError "cleaned_data")
  | Some cd =>
      match cd !! key with
      | Some v => ret v
      | None => raise (KeyError key)
      end
  end.

(** [Message(sender=..., recipient=..., subject=..., body=...)]: assigning a
    generic foreign key stores the instance's content type and key. *)
Definition Message_init (sender recipient : Principal) (subject body : string)
    : Message :=
  {| id := None; subject := subject; body := body;
     r_content_type := p_content_type recipient;
     r_object_id := p_id recipient;
     s_content_type := p_content_type sender;
     s_object_id := p_id sender;
     parent_msg := None; sent_at := None; read_at := None;
     replied_at := None; sender_deleted_at := None;
     recipient_deleted_at := None |}.

(** The names forms.py binds at module level. *)
Definition forms_globals : list (string * PyValue) :=
  [ ("forms", PyOpaque); ("settings", PyOpaque); ("_", PyOpaque);
    ("timezone", PyOpaque); ("notification", PyOpaque);
    ("Message", PyOpaque); ("CommaSeparatedUserField", PyOpaque);
    ("ComposeForm", PyOpaque) ].

(** The local names of [save] when it reaches the notifications. *)
Definition save_locals (sender recipient : Principal)
    (parent_msg : option Message) (subject body : string)
    (message_list : list Message) (msg : Message)
    : list (string * PyValue) :=
  [ ("self", PyOpaque);
    ("sender", PyPrincipal sender);
    ("recipient", PyPrincipal recipient);
    ("parent_msg", from_option PyMessage PyNone parent_msg);
    ("subject", PyText subject);
    ("body", PyText body);
    ("message_list", PyList message_list);
    ("msg", PyMessage msg) ].

(** Reading a name: the locals, then the module's globals. *)
Definition load_name (name : string) (locals : list (string * PyValue))
    : M PyValue :=
  match assoc name locals with
  | Some v => ret v
  | None =>
      match assoc name forms_globals with
      | Some v => ret v
      | None => raise (NameError name)
      end
  end.

(** ** The abstract class [Message] *)

(** [class Meta: abstract = True]: the class [Message] of models.py has no
    table, no [id] field and no manager of its own, and its foreign key to
    ['self'] is never resolved; it is there to be subclassed.  The manager
    methods and [save] above run on a concrete subclass.  Code that names the
    class [Message] itself gets what the framework does with an abstract
    class, which changed between the versions the two files can be imported
    with. *)
Inductive Django :=
  | before_1_5     (* the manager of an abstract class is handed out *)
  | before_1_7     (* 1.5 and 1.6: that manager is refused *)
  | from_1_7.      (* 1.7 and 1.8: and generic keys skip abstract classes *)

(** [Message.objects] on the abstract class: refused from 1.5 on (the manager
    is not available, the class being abstract); before, it is handed out. *)
Definition abstract_objects (v : Django) : M unit :=
  match v with
  | before_1_5 => ret tt
  | before_1_7 | from_1_7 => raise (AttributeError "objects")
  end.

(** [.count()] on a query set of the abstract class: the query goes to the
    table the class would have, which does not exist. *)
Definition abstract_count (q : QuerySet) : M nat :=
  raise (DatabaseError "django_messages_message").

(** [Message(sender=..., recipient=..., subject=..., body=...)] on the
    abstract class.  Up to 1.6 the generic foreign keys turn their keywords
    into content type and key before the fields are set, and an instance is
    built, without an [id]; from 1.7 on they do so for concrete classes only,
    and the constructor refuses the keyword. *)
Definition abstract_Message (v : Django) (sender recipient : Principal)
    (subject body : string) : M Message :=
  match v with
  | before_1_5 | before_1_7 =>
      ret (Message_init sender recipient subject body)
  | from_1_7 => raise (TypeError "invalid keyword argument")
  end.

(** [msg.parent_msg = parent_msg] on an instance of the abstract class: the
    class the foreign key to ['self'] points at was never resolved, and the
    check of the assigned instance against it raises. *)
Definition abstract_set_parent_msg (msg parent_msg : Message) : M Message :=
  raise (TypeError "isinstance").

(** [msg.save()] on an instance of the abstract class: [Message.save] starts
    with [if not self.id], and the instance has no attribute [id]. *)
Definition abstract_save (self : Message) : M Message :=
  raise (AttributeError "id").

(** [inbox_count_for(obj)]:
    [Message.objects.filter(...).count()] on the abstract class. *)
Definition inbox_count_for (v : Django) (obj : Principal) : M nat :=
  _ <~ abstract_objects v ;
  q <~ lift (Manager_filter
               [ exact "r_object_id" (VInt (p_id obj));
                 exact "r_content_type" (VInt (p_content_type obj));
                 isnull "read_at" true;
                 isnull "recipient_deleted_at" true ]) ;
  abstract_count q.

(** The notifications at the end of [save]. *)
Definition send_notifications (cfg : Settings)
    (locals : list (string * PyValue)) (parent_msg : option Message)
    (msg : Message) : M unit :=
  if notification cfg then
    match parent_msg with
    | Some _ =>
        s <~ load_name "sender" locals ;
        _ <~ notification_send [s] "messages_replied" msg ;
        r <~ load_name "r" locals ;
        notification_send [r] "messages_reply_received" msg
    | None =>
        s <~ load_name "sender" locals ;
        _ <~ notification_send [s] "messages_sent" msg ;
        r <~ load_name "r" locals ;
        notification_send [r] "messages_received" msg
    end
  else ret tt.

(** [ComposeForm.save(self, sender, recipient, parent_msg=None)].  The name
    [Message] is the abstract class imported from models.py; [parent_msg] is
    the caller's instance of a concrete subclass. *)
Definition ComposeForm_save (v : Django) (cfg : Settings) (self : ComposeForm)
    (sender recipient : Principal) (parent_msg : option Message)
    : M (list Message) :=
  subject <~ cleaned self "subject" ;
  body <~ cleaned self "body" ;
  let message_list := [] in
  msg <~ abstract_Message v sender recipient subject body ;
  msg <~ match parent_msg with
         | Some parent =>
             msg <~ abstract_set_parent_msg msg parent ;
             t <~ now ;
             let parent := set_replied_at (Some t) parent in
             _ <~ Message_save parent ;
             ret msg
         | None => ret msg
         end ;
  msg <~ abstract_save msg ;
  let message_list := message_list ++ [msg] in
  let locals :=
    save_locals sender recipient parent_msg subject body message_list msg in
  _ <~ send_notifications cfg locals parent_msg msg ;
  ret message_list.

(** ** The compose/reply workflow *)

Inductive Outcome :=
  | Created (message_list : list Message)
  | ValidationError (errs : gmap string ErrorCode)
  | Exception (e : Exn).

(** Modelled from the spec: the caller of [ComposeForm] (the view) is not
    among the source files.  The workflow validates the submitted subject and
    body; a validation failure is handed back to the caller before anything is
    persisted, and only a valid form is saved. *)
Definition compose (v : Django) (cfg : Settings) (d : gmap string string)
    (sender recipient : Principal) (parent_msg : option Message)
    : World → Outcome * World :=
  λ w,
    let form := full_clean (bound_form d) in
    if is_valid (bound_form d) then
      match ComposeForm_save v cfg form sender recipient parent_msg w with
      | (Ok l, w') => (Created l, w')
      | (Raise e, w') => (Exception e, w')
      end
    else (ValidationError (errors form), w).

(** ** What the specification says the listings hold *)

(** A row of the table. *)
Definition in_table (t : Table) (m : Message) : Prop :=
  ∃ k, rows t !! k = Some m.

(** Received by [u] and not deleted by the recipient. *)
Definition inbox_message (u : Principal) (m : Message) : Prop :=
  recipient m = u ∧ recipient_deleted_at m = None.

(** Sent by [u] and not deleted by the sender. *)
Definition outbox_message (u : Principal) (m : Message) : Prop :=
  sender m = u ∧ sender_deleted_at m = None.

(** Every stored row carries the key it is stored under. *)
Definition keyed (t : Table) : Prop :=
  ∀ k m, rows t !! k = Some m → id m = Some k.

(** What was submitted under a field name; nothing counts as empty. *)
Definition submitted (d : gmap string string) (name : string) : string :=
  default "" (d !! name).

(** The submission the workflow refuses: the subject is longer than 120
    characters, or the subject or the body is empty. *)
Definition rejected (d : gmap string string) : Prop :=
  (120 < String.length (submitted d "subject"))%nat
  ∨ submitted d "subject" = ""
  ∨ submitted d "body" = "".

(** The valid submission: a non-empty subject of at most 120 characters and a
    non-empty body. *)
Definition acceptable (d : gmap string string) : Prop :=
  submitted d "subject" ≠ ""
  ∧ (String.length (submitted d "subject") ≤ 120)%nat
  ∧ submitted d "body" ≠ "".

(** An attribute assignment that leaves the key and [sent_at] alone. *)
Definition keeps_sent_at (e : Message → Message) : Prop :=
  ∀ x, id (e x) = id x ∧ sent_at (e x) = sent_at x.

(** A message saved again and again, with attribute assignments in between. *)
Fixpoint save_again (edits : list (Message → Message)) (m : Message)
    : M Message :=
  match edits with
  | [] => ret m
  | e :: edits' => m' <~ Message_save (e m) ; save_again edits' m'
  end.

(** The life of [sent_at]: the first save of [m] in world [w] reads the clock
    once, stores the row under a key [k] and leaves [sent_at] at that reading;
    whatever is assigned to other attributes afterwards, and in whatever later
    world, every further save returns and stores the message with the same
    [sent_at] and does not read the clock. *)
Definition sent_at_set_once (m : Message) (w : World) : Prop :=
  ∃ k m1 w1,
    Message_save m w = (Ok m1, w1)
    ∧ id m1 = Some k
    ∧ rows (db w1) !! k = Some m1
    ∧ sent_at m1 = Some (clock w (ticks w))
    ∧ ticks w1 = S (ticks w)
    ∧ ∀ edits w2, Forall keeps_sent_at edits →
        ∃ m2 w3,
          save_again edits m1 w2 = (Ok m2, w3)
          ∧ id m2 = Some k
          ∧ sent_at m2 = Some (clock w (ticks w))
          ∧ ticks w3 = ticks w2
          ∧ (edits ≠ [] → rows (db w3) !! k = Some m2).

(** ** Sample data *)

Definition alice : Principal := {| p_content_type := 3; p_id := 1 |}.
Definition bob : Principal := {| p_content_type := 3; p_id := 2 |}.

Definition hello : gmap string string :=
  <["subject" := "Hi"]> (<["body" := "Hello"]> ∅).

Definition no_subject : gmap string string := <["body" := "Hello"]> ∅.

Definition notify_on : Settings :=
  {| INSTALLED_APPS := ["notification"]; DJANGO_MESSAGES_NOTIFY := None |}.

Definition notify_off : Settings :=
  {| INSTALLED_APPS := []; DJANGO_MESSAGES_NOTIFY := None |}.

(** An empty table at a time when the clock reads 1000, 1001, ... *)
Definition world0 : World :=
  {| db := {| rows := ∅; next_pk := 1 |};
     clock := λ n, (1000 + Z.of_nat n)%Z;
     ticks := 0; journal := []; sent := [] |}.

(** Alice's message to Bob as [Message.save] stores it in [world0]. *)
Definition first_message : Message :=
  {| id := Some 1%Z; subject := "Hi"; body := "Hello";
     r_content_type := 3; r_object_id := 2;
     s_content_type := 3; s_object_id := 1;
     parent_msg := None; sent_at := Some 1000%Z; read_at := None;
     replied_at := None; sender_deleted_at := None;
     recipient_deleted_at := None |}.

(** The world after Alice sent it. *)
Definition world1 : World :=
  {| db := {| rows := {[ 1%Z := first_message ]}; next_pk := 2 |};
     clock := λ n, (1000 + Z.of_nat n)%Z;
     ticks := 1; journal := [(1%Z, first_message)]; sent := [] |}.

(** Bob's reply as it is stored. *)
Definition reply_message : Message :=
  {| id := Some 2%Z; subject := "Hi"; body := "Hello";
     r_content_type := 3; r_object_id := 1;
     s_content_type := 3; s_object_id := 2;
     parent_msg := Some 1%Z; sent_at := Some 1002%Z; read_at := None;
     replied_at := None; sender_deleted_at := None;
     recipient_deleted_at := None |}.

(** The module-level test at the end of models.py: the e-mail fallback is
    connected to [post_save] when the notification app is not installed and
    notifications are not switched off. *)
Definition email_fallback (cfg : Settings) : bool :=
  negb (bool_decide ("notification" ∈ INSTALLED_APPS cfg))
  && default true (DJANGO_MESSAGES_NOTIFY cfg).

#[global] Instance sent_at_le_total : Total sent_at_le.
Proof.
  intros a b. unfold sent_at_le.
  destruct (sent_at a), (sent_at b); try tauto. lia.
Qed.

#[global] Instance sent_at_le_trans : Transitive sent_at_le.
Proof.
  intros a b c. unfold sent_at_le.
  destruct (sent_at a), (sent_at b), (sent_at c); try tauto. lia.
Qed.

(** The parent's row once Bob replied. *)
Definition answered_message : Message :=
  set_replied_at (Some 1001%Z) first_message.

(** A world whose table holds the answered message and the reply. *)
Definition world2 : World :=
  {| db := {| rows := <[2%Z := reply_message]>
                        (<[1%Z := answered_message]> ∅);
              next_pk := 3 |};
     clock := λ n, (1000 + Z.of_nat n)%Z;
     ticks := 3;
     journal := [(1%Z, first_message); (1%Z, answered_message);
                 (2%Z, reply_message)];
     sent := [] |}.

(** * Properties *)

(** ** Query sets *)

Lemma elem_of_table_rows (t : Table) (m : Message) :
  m ∈ table_rows t ↔ in_table t m.
Proof.
  unfold table_rows, in_table. rewrite list_elem_of_fmap. split.
  - intros [[k m'] [-> Hin]]. exists k. by apply elem_of_map_to_list.
  - intros [k Hk]. exists (k, m). split; [done|]. by apply elem_of_map_to_list.
Qed.

Lemma QuerySet_rows_filter (q : QuerySet) (t : Table) :
  QuerySet_rows q t
  ≡ₚ filter (λ m, holds (q_where q) m = true) (table_rows t).
Proof. unfold QuerySet_rows. apply merge_sort_Permutation. Qed.

Lemma elem_of_QuerySet_rows (q : QuerySet) (t : Table) (m : Message) :
  m ∈ QuerySet_rows q t ↔ in_table t m ∧ holds (q_where q) m = true.
Proof.
  rewrite QuerySet_rows_filter, list_elem_of_filter, elem_of_table_rows.
  tauto.
Qed.

(** [a | b] lists the rows of [a] and the rows of [b]. *)
Lemma elem_of_QuerySet_or (a b : QuerySet) (t : Table) (m : Message) :
  m ∈ QuerySet_rows (QuerySet_or a b) t
  ↔ m ∈ QuerySet_rows a t ∨ m ∈ QuerySet_rows b t.
Proof.
  rewrite !elem_of_QuerySet_rows. simpl. rewrite orb_true_iff. tauto.
Qed.

(** Rows that carry their keys are pairwise different, so no query lists a
    row twice, [a | b] included. *)
Lemma NoDup_table_rows (t : Table) : keyed t → NoDup (table_rows t).
Proof.
  intros Hk. unfold table_rows. apply NoDup_fmap_2_strong.
  - intros [k1 m1] [k2 m2] H1 H2 Heq. simpl in Heq. subst m2.
    apply elem_of_map_to_list in H1, H2.
    apply Hk in H1, H2. congruence.
  - apply NoDup_map_to_list.
Qed.

Lemma NoDup_QuerySet_rows (q : QuerySet) (t : Table) :
  keyed t → NoDup (QuerySet_rows q t).
Proof.
  intros Hk. rewrite QuerySet_rows_filter.
  apply NoDup_filter, NoDup_table_rows, Hk.
Qed.

(** The clauses the manager builds, read on a row. *)
Lemma inbox_clause (u : Principal) (m : Message) :
  holds (CAnd (CAnd (CAnd CTrue (CExact c_r_object_id (VInt (p_id u))))
                 (CExact c_r_content_type (VInt (p_content_type u))))
           (CIsNull c_recipient_deleted_at true)) m = true
  ↔ inbox_message u m.
Proof.
  unfold inbox_message, recipient. destruct u as [ct i], m; simpl.
  rewrite !andb_true_iff, !bool_decide_eq_true.
  destruct recipient_deleted_at0; simpl; split.
  - intros [_ ?]; done.
  - intros [_ ?]; done.
  - intros [[? ?] _]; split; [|done]. congruence.
  - intros [[= -> ->] _]. done.
Qed.

Lemma outbox_clause (u : Principal) (m : Message) :
  holds (CAnd (CAnd (CAnd CTrue (CExact c_s_object_id (VInt (p_id u))))
                 (CExact c_s_content_type (VInt (p_content_type u))))
           (CIsNull c_sender_deleted_at true)) m = true
  ↔ outbox_message u m.
Proof.
  unfold outbox_message, sender. destruct u as [ct i], m; simpl.
  rewrite !andb_true_iff, !bool_decide_eq_true.
  destruct sender_deleted_at0; simpl; split.
  - intros [_ ?]; done.
  - intros [_ ?]; done.
  - intros [[? ?] _]; split; [|done]. congruence.
  - intros [[= -> ->] _]. done.
Qed.

Lemma inbox_for_Ok (u : Principal) :
  inbox_for u =
  Ok {| q_where :=
          CAnd (CAnd (CAnd CTrue (CExact c_r_object_id (VInt (p_id u))))
                  (CExact c_r_content_type (VInt (p_content_type u))))
            (CIsNull c_recipient_deleted_at true) |}.
Proof. reflexivity. Qed.

Lemma outbox_for_Ok (u : Principal) :
  outbox_for u =
  Ok {| q_where :=
          CAnd (CAnd (CAnd CTrue (CExact c_s_object_id (VInt (p_id u))))
                  (CExact c_s_content_type (VInt (p_content_type u))))
            (CIsNull c_sender_deleted_at true) |}.
Proof. reflexivity. Qed.

(** C7.  For every user [u] and every state of the table, [inbox_for(u)]
    succeeds and lists exactly the stored messages whose recipient is [u] and
    whose [recipient_deleted_at] is null, each as often as it is stored; no
    listed message has [recipient_deleted_at] set. *)
Theorem inbox_for_exact (u : Principal) (t : Table) :
  ∃ q, inbox_for u = Ok q
    ∧ QuerySet_rows q t ≡ₚ filter (inbox_message u) (table_rows t)
    ∧ (∀ m, m ∈ QuerySet_rows q t ↔ in_table t m ∧ inbox_message u m)
    ∧ Forall (λ m, recipient_deleted_at m = None) (QuerySet_rows q t).
Proof.
  eexists. split; [apply inbox_for_Ok|].
  assert (Hm : ∀ m, m ∈ QuerySet_rows
                      {| q_where :=
                           CAnd (CAnd (CAnd CTrue
                                   (CExact c_r_object_id (VInt (p_id u))))
                                   (CExact c_r_content_type
                                      (VInt (p_content_type u))))
                             (CIsNull c_recipient_deleted_at true) |} t
                    ↔ in_table t m ∧ inbox_message u m).
  { intros m. rewrite elem_of_QuerySet_rows. simpl q_where.
    by rewrite inbox_clause. }
  split; [|split; [exact Hm|]].
  - rewrite QuerySet_rows_filter. simpl q_where.
    erewrite list_filter_iff; [reflexivity|]. intros m. apply inbox_clause.
  - apply Forall_forall. intros m [_ [_ Hd]]%Hm. exact Hd.
Qed.

(** C2, evaluated on the code.  For every user [u], [trash_for(u)] returns no
    listing at all: its lookups [recipient=u] and [sender=u] name the generic
    foreign keys, for which the table has no column, so the first [filter]
    raises [FieldError] where [inbox_for] and [outbox_for], which name the
    columns [r_object_id], [r_content_type], [s_object_id] and
    [s_content_type], succeed. *)
Theorem trash_for_raises_FieldError (u : Principal) :
  trash_for u = Raise (FieldError "recipient")
  ∧ (∃ q, inbox_for u = Ok q)
  ∧ (∃ q, outbox_for u = Ok q).
Proof. split; [reflexivity|]. split; eexists; reflexivity. Qed.

(** Membership in a listing does not look at [recipient_deleted_at] when the
    clause does not, nor at [sent_at] or [id]. *)
Lemma outbox_message_frame (u : Principal) (m m' : Message) :
  s_content_type m' = s_content_type m →
  s_object_id m' = s_object_id m →
  sender_deleted_at m' = sender_deleted_at m →
  outbox_message u m' ↔ outbox_message u m.
Proof.
  unfold outbox_message, sender. intros -> -> ->. done.
Qed.

Lemma Message_save_keyed (m : Message) (k : Z) (w : World) :
  id m = Some k →
  ∃ m', Message_save m w
        = (Ok m',
           {| db := {| rows := <[k := m']> (rows (db w));
                       next_pk := Z.max (next_pk (db w)) (k + 1) |};
              clock := clock w;
              ticks := if not_id (Some k) then S (ticks w) else ticks w;
              journal := journal w ++ [(k, m')];
              sent := sent w |})
      ∧ m' = (if not_id (Some k)
              then set_sent_at (Some (clock w (ticks w))) m else m).
Proof.
  intros Hid. unfold Message_save, bind. rewrite Hid.
  destruct (not_id (Some k)) eqn:Hz.
  - eexists. split; [|reflexivity].
    unfold now, ret, Model_save, bind. simpl. rewrite Hid.
    destruct m; simpl in *; subst; reflexivity.
  - eexists. split; [|reflexivity].
    unfold ret, Model_save. simpl. rewrite Hid.
    destruct m, w; simpl in *; subst; reflexivity.
Qed.

(** C9.  For every message [m] stored under its key and every user [s],
    setting [m.recipient_deleted_at] and saving [m] writes the row back under
    the same key, leaves every other row alone, and leaves the message's
    membership in [outbox_for(s)] as it was; in particular a message sent by
    [s] and not deleted by [s] is still listed. *)
Theorem recipient_delete_keeps_outbox
    (s : Principal) (m : Message) (k t : Z) (w : World) :
  id m = Some k →
  rows (db w) !! k = Some m →
  ∃ q m' w',
    outbox_for s = Ok q
    ∧ Message_save (set_recipient_deleted_at (Some t) m) w = (Ok m', w')
    ∧ rows (db w') !! k = Some m'
    ∧ recipient_deleted_at m' = Some t
    ∧ (∀ j, j ≠ k → rows (db w') !! j = rows (db w) !! j)
    ∧ (m' ∈ QuerySet_rows q (db w') ↔ m ∈ QuerySet_rows q (db w))
    ∧ (sender m = s → sender_deleted_at m = None →
       m' ∈ QuerySet_rows q (db w')).
Proof.
  intros Hid Hrow.
  destruct (Message_save_keyed (set_recipient_deleted_at (Some t) m) k w)
    as (m' & Hsave & Hm'); [by destruct m|].
  eexists _, m', _. split; [apply outbox_for_Ok|].
  split; [exact Hsave|]. simpl.
  assert (Hframe : ∀ u, outbox_message u m' ↔ outbox_message u m).
  { intros u. apply outbox_message_frame; subst m';
      destruct (not_id (Some k)); by destruct m. }
  assert (Hin : m' ∈ QuerySet_rows
                  {| q_where :=
                       CAnd (CAnd (CAnd CTrue
                               (CExact c_s_object_id (VInt (p_id s))))
                               (CExact c_s_content_type
                                  (VInt (p_content_type s))))
                         (CIsNull c_sender_deleted_at true) |}
                  {| rows := <[k := m']> (rows (db w));
                     next_pk := Z.max (next_pk (db w)) (k + 1) |}
                ↔ m ∈ QuerySet_rows
                    {| q_where :=
                         CAnd (CAnd (CAnd CTrue
                                 (CExact c_s_object_id (VInt (p_id s))))
                                 (CExact c_s_content_type
                                    (VInt (p_content_type s))))
                           (CIsNull c_sender_deleted_at true) |} (db w)).
  { rewrite !elem_of_QuerySet_rows. simpl q_where.
    rewrite !outbox_clause, Hframe. split.
    - intros [_ Ho]. split; [by exists k|done].
    - intros [_ Ho]. split; [|done]. exists k. simpl.
      by rewrite lookup_insert_eq. }
  split; [by rewrite lookup_insert_eq|].
  split; [subst m'; destruct (not_id (Some k)); by destruct m|].
  split; [intros j Hj; by rewrite lookup_insert_ne|].
  split; [exact Hin|].
  intros Hs Hd. apply Hin. apply elem_of_QuerySet_rows. split; [by exists k|].
  simpl q_where. apply outbox_clause. done.
Qed.

(** ** Validation *)

Lemma acceptable_or_rejected (d : gmap string string) :
  acceptable d ∨ rejected d.
Proof.
  unfold acceptable, rejected.
  destruct (decide (submitted d "subject" = "")); [tauto|].
  destruct (decide (submitted d "body" = "")); [tauto|].
  destruct (decide (120 < String.length (submitted d "subject"))%nat);
    [tauto|].
  left. repeat split; [done|lia|done].
Qed.

Lemma acceptable_not_rejected (d : gmap string string) :
  acceptable d → ¬ rejected d.
Proof. unfold acceptable, rejected. intros (? & ? & ?) [?|[?|?]]; [lia|done..]. Qed.

Lemma clean_fields_acceptable (d : gmap string string) :
  acceptable d →
  clean_fields ComposeForm_fields d
  = (<["subject" := submitted d "subject"]>
       (<["body" := submitted d "body"]> ∅), ∅).
Proof.
  unfold acceptable, submitted. intros (Hs & Hl & Hb).
  unfold clean_fields, ComposeForm_fields, CharField_clean. simpl.
  rewrite (bool_decide_eq_false_2 _ Hb), (bool_decide_eq_false_2 _ Hs).
  destruct (Nat.ltb_spec 120 (String.length (default "" (d !! "subject"))));
    [lia|reflexivity].
Qed.

Lemma clean_fields_rejected (d : gmap string string) :
  rejected d → (clean_fields ComposeForm_fields d).2 ≠ ∅.
Proof.
  unfold rejected, submitted. intros Hr.
  unfold clean_fields, ComposeForm_fields, CharField_clean. simpl.
  destruct (decide (default "" (d !! "body") = "")) as [Hb|Hb].
  - rewrite (bool_decide_eq_true_2 _ Hb).
    case_bool_decide; [apply insert_non_empty|].
    destruct (_ <? _)%nat; apply insert_non_empty.
  - rewrite (bool_decide_eq_false_2 _ Hb).
    destruct (decide (default "" (d !! "subject") = "")) as [Hs|Hs].
    + rewrite (bool_decide_eq_true_2 _ Hs). apply insert_non_empty.
    + rewrite (bool_decide_eq_false_2 _ Hs).
      destruct Hr as [Hl|[?|?]]; [|done..].
      destruct (Nat.ltb_spec 120
                  (String.length (default "" (d !! "subject")))); [|lia].
      apply insert_non_empty.
Qed.

Lemma is_valid_acceptable (d : gmap string string) :
  acceptable d → is_valid (bound_form d) = true.
Proof.
  intros Ha. unfold is_valid, full_clean, bound_form. cbn [data].
  rewrite (clean_fields_acceptable d Ha). cbn [errors].
  by apply bool_decide_eq_true_2.
Qed.

Lemma is_valid_rejected (d : gmap string string) :
  rejected d → is_valid (bound_form d) = false.
Proof.
  intros Hr. unfold is_valid, full_clean, bound_form. cbn [data].
  pose proof (clean_fields_rejected d Hr) as Hne.
  destruct (clean_fields ComposeForm_fields d) as [cd errs].
  cbn [errors]. by apply bool_decide_eq_false_2.
Qed.

Lemma full_clean_acceptable (d : gmap string string) :
  acceptable d →
  full_clean (bound_form d)
  = {| data := d;
       cleaned_data := Some (<["subject" := submitted d "subject"]>
                               (<["body" := submitted d "body"]> ∅));
       errors := ∅ |}.
Proof.
  intros Ha. unfold full_clean, bound_form. cbn [data].
  by rewrite (clean_fields_acceptable d Ha).
Qed.

(** C6.  The workflow ends in a validation error if and only if the submitted
    subject is longer than 120 characters or the subject or the body is empty;
    and when it does, the world is as it was before the call: no row was
    written, no parent updated, nothing sent. *)
Theorem compose_rejects_exactly
    (v : Django) (cfg : Settings) (d : gmap string string)
    (sender recipient : Principal) (parent_msg : option Message) (w : World) :
  ((∃ errs, (compose v cfg d sender recipient parent_msg w).1
            = ValidationError errs) ↔ rejected d)
  ∧ (rejected d → (compose v cfg d sender recipient parent_msg w).2 = w).
Proof.
  split; [split|].
  - intros [errs Hout].
    destruct (acceptable_or_rejected d) as [Ha|Hr]; [|done].
    unfold compose in Hout. rewrite (is_valid_acceptable d Ha) in Hout.
    destruct (ComposeForm_save _ _ _ _ _ _ _) as [[l|e] w']; discriminate.
  - intros Hr. unfold compose. rewrite (is_valid_rejected d Hr). simpl. eauto.
  - intros Hr. unfold compose. by rewrite (is_valid_rejected d Hr).
Qed.

(** ** Running [Message.save] and [ComposeForm.save] *)

Lemma bind_Ok {A B} (c : M A) (k : A → M B) (w w' : World) (a : A) :
  c w = (Ok a, w') → bind c k w = k a w'.
Proof. unfold bind. by intros ->. Qed.

(** The first save of a message: the clock is read once, the row goes under
    the next key. *)
Lemma Message_save_fresh (m : Message) (w : World) :
  id m = None →
  Message_save m w
  = (Ok (set_id (Some (next_pk (db w)))
           (set_sent_at (Some (clock w (ticks w))) m)),
     {| db := {| rows := <[next_pk (db w) :=
                            set_id (Some (next_pk (db w)))
                              (set_sent_at (Some (clock w (ticks w))) m)]>
                         (rows (db w));
                 next_pk := Z.max (next_pk (db w)) (next_pk (db w) + 1) |};
        clock := clock w; ticks := S (ticks w);
        journal := journal w ++
                   [(next_pk (db w),
                     set_id (Some (next_pk (db w)))
                       (set_sent_at (Some (clock w (ticks w))) m))];
        sent := sent w |}).
Proof.
  intros Hid. unfold Message_save, bind, now, ret, Model_save.
  destruct m; simpl in *; subst; reflexivity.
Qed.

(** What every save does. *)
Lemma Message_save_writes (m : Message) (w : World) :
  ∃ k m' w',
    Message_save m w = (Ok m', w')
    ∧ journal w' = journal w ++ [(k, m')]
    ∧ rows (db w') = <[k := m']> (rows (db w))
    ∧ next_pk (db w') = Z.max (next_pk (db w)) (k + 1)
    ∧ id m' = Some k
    ∧ k = default (next_pk (db w)) (id m)
    ∧ replied_at m' = replied_at m
    ∧ parent_msg m' = parent_msg m
    ∧ read_at m' = read_at m
    ∧ sent w' = sent w
    ∧ clock w' = clock w
    ∧ (ticks w ≤ ticks w')%nat.
Proof.
  destruct (id m) as [k|] eqn:Hid.
  - destruct (Message_save_keyed m k w Hid) as (m' & Hsave & Hm').
    eexists k, m', _. split; [exact Hsave|]. simpl.
    repeat split; try done;
      try (subst m'; destruct (not_id (Some k)); by destruct m).
    case_bool_decide; lia.
  - eexists _, _, _. split; [apply (Message_save_fresh m w Hid)|]. simpl.
    repeat split; try done; try by destruct m. lia.
Qed.

Lemma cleaned_subject (d : gmap string string) (w : World) :
  acceptable d →
  cleaned (full_clean (bound_form d)) "subject" w
  = (Ok (submitted d "subject"), w).
Proof.
  intros Ha. rewrite (full_clean_acceptable d Ha). unfold cleaned.
  cbn [cleaned_data]. by rewrite lookup_insert_eq.
Qed.

Lemma cleaned_body (d : gmap string string) (w : World) :
  acceptable d →
  cleaned (full_clean (bound_form d)) "body" w = (Ok (submitted d "body"), w).
Proof.
  intros Ha. rewrite (full_clean_acceptable d Ha). unfold cleaned.
  cbn [cleaned_data]. rewrite lookup_insert_ne by done.
  by rewrite lookup_insert_eq.
Qed.

Lemma wf_table_world1 : wf_table (db world1).
Proof.
  split; [simpl; lia|]. simpl. apply map_Forall_singleton. lia.
Qed.

Lemma acceptable_hello : acceptable hello.
Proof.
  unfold acceptable, submitted, hello.
  rewrite lookup_insert_eq, lookup_insert_ne, lookup_insert_eq by done.
  simpl. repeat split; [done|lia|done].
Qed.

(** ** [sent_at] *)

Lemma Message_save_again (m : Message) (k : Z) (w : World) :
  id m = Some k → k ≠ 0%Z →
  Message_save m w
  = (Ok m,
     {| db := {| rows := <[k := m]> (rows (db w));
                 next_pk := Z.max (next_pk (db w)) (k + 1) |};
        clock := clock w; ticks := ticks w;
        journal := journal w ++ [(k, m)];
        sent := sent w |}).
Proof.
  intros Hid Hk.
  destruct (Message_save_keyed m k w Hid) as (m' & Hsave & Hm').
  assert (Hz : not_id (Some k) = false) by (by apply bool_decide_eq_false_2).
  rewrite Hz in Hsave, Hm'. by subst m'.
Qed.

Lemma save_again_keeps_sent_at
    (edits : list (Message → Message)) (m : Message) (k : Z) (w : World) :
  id m = Some k → k ≠ 0%Z →
  Forall keeps_sent_at edits →
  ∃ m' w',
    save_again edits m w = (Ok m', w')
    ∧ id m' = Some k
    ∧ sent_at m' = sent_at m
    ∧ ticks w' = ticks w
    ∧ (rows (db w) !! k = Some m ∨ edits ≠ [] → rows (db w') !! k = Some m').
Proof.
  intros Hid Hk Hedits. revert m w Hid.
  induction Hedits as [|e edits He _ IH]; intros m w Hid.
  - exists m, w. simpl. unfold ret. repeat split; try done.
    intros [?|?]; done.
  - destruct (He m) as [Hei Hes].
    assert (Hid' : id (e m) = Some k) by congruence.
    simpl. rewrite (bind_Ok _ _ _ _ _ (Message_save_again (e m) k w Hid' Hk)).
    destruct (IH (e m)
                {| db := {| rows := <[k := e m]> (rows (db w));
                            next_pk := Z.max (next_pk (db w)) (k + 1) |};
                   clock := clock w; ticks := ticks w;
                   journal := journal w ++ [(k, e m)];
                   sent := sent w |} Hid')
      as (m' & w' & Hrun & Hi & Hs & Ht & Hrow).
    exists m', w'. split; [exact Hrun|]. split; [done|].
    split; [congruence|]. split; [done|].
    intros _. apply Hrow. left. simpl. by rewrite lookup_insert_eq.
Qed.

(** C8.  A message that has no key yet gets its [sent_at] at its first save,
    from the clock, and is stored under a key; every later save of the same
    message, in any later world and after any assignments that do not touch
    [sent_at] themselves, leaves [sent_at] at that value, in the instance and
    in the stored row, and does not read the clock again. *)
Theorem sent_at_assigned_once (m : Message) (w : World) :
  wf_table (db w) →
  id m = None →
  sent_at_set_once m w.
Proof.
  intros [Hpos _] Hid. unfold sent_at_set_once.
  eexists (next_pk (db w)), _, _.
  split; [apply (Message_save_fresh m w Hid)|]. simpl.
  split; [done|]. split; [by rewrite lookup_insert_eq|].
  split; [done|]. split; [done|].
  intros edits w2 Hedits.
  destruct (save_again_keeps_sent_at edits
              (set_id (Some (next_pk (db w)))
                 (set_sent_at (Some (clock w (ticks w))) m))
              (next_pk (db w)) w2)
    as (m2 & w3 & Hrun & Hi & Hs & Ht & Hrow); [done|lia|done|].
  exists m2, w3. split; [exact Hrun|]. split; [done|].
  split; [by rewrite Hs|]. split; [done|]. intros Hne. apply Hrow. by right.
Qed.

Lemma wf_table_world0 : wf_table (db world0).
Proof. split; [simpl; lia|]. simpl. apply map_Forall_empty. Qed.

Lemma sent_at_assigned_once_witness :
  wf_table (db world0)
  ∧ id (Message_init alice bob "Hi" "Hello") = None
  ∧ sent_at_set_once (Message_init alice bob "Hi" "Hello") world0.
Proof.
  split; [exact wf_table_world0|]. split; [reflexivity|].
  exact (sent_at_assigned_once (Message_init alice bob "Hi" "Hello") world0
           wf_table_world0 eq_refl).
Defined.

(** ** The theorems at the sample data *)

Lemma rejected_no_subject : rejected no_subject.
Proof.
  right. left. unfold submitted, no_subject.
  by rewrite lookup_insert_ne, lookup_empty.
Qed.

Lemma compose_rejects_exactly_witness :
  rejected no_subject
  ∧ (∃ errs, (compose before_1_7 notify_on no_subject alice bob None world0).1
             = ValidationError errs)
  ∧ (compose before_1_7 notify_on no_subject alice bob None world0).2 = world0.
Proof.
  split; [exact rejected_no_subject|].
  destruct (compose_rejects_exactly before_1_7 notify_on no_subject alice bob None
              world0)
    as [Hiff Hsame].
  split; [apply Hiff, rejected_no_subject|apply Hsame, rejected_no_subject].
Defined.

Lemma recipient_delete_keeps_outbox_witness :
  id first_message = Some 1%Z
  ∧ rows (db world1) !! 1%Z = Some first_message
  ∧ ∃ q m' w',
      outbox_for alice = Ok q
      ∧ Message_save (set_recipient_deleted_at (Some 1005%Z) first_message)
          world1 = (Ok m', w')
      ∧ rows (db w') !! 1%Z = Some m'
      ∧ recipient_deleted_at m' = Some 1005%Z
      ∧ (∀ j, j ≠ 1%Z → rows (db w') !! j = rows (db world1) !! j)
      ∧ (m' ∈ QuerySet_rows q (db w')
         ↔ first_message ∈ QuerySet_rows q (db world1))
      ∧ (sender first_message = alice →
         sender_deleted_at first_message = None →
         m' ∈ QuerySet_rows q (db w')).
Proof.
  assert (Hrow : rows (db world1) !! 1%Z = Some first_message).
  { simpl. apply lookup_singleton_eq. }
  split; [reflexivity|]. split; [exact Hrow|].
  exact (recipient_delete_keeps_outbox alice first_message 1 1005 world1
           eq_refl Hrow).
Defined.

(** ** Calls on the abstract class *)

(** Once the cleaned subject and body are read, [save] raises at the first
    statement that needs the class [Message] to be concrete, with the world as
    it was. *)
Lemma ComposeForm_save_abstract
    (v : Django) (cfg : Settings) (self : ComposeForm) (from to : Principal)
    (parent : option Message) (w : World) (s b : string) :
  cleaned self "subject" w = (Ok s, w) →
  cleaned self "body" w = (Ok b, w) →
  ComposeForm_save v cfg self from to parent w
  = (Raise match v, parent with
           | from_1_7, _ => TypeError "invalid keyword argument"
           | _, Some _ => TypeError "isinstance"
           | _, None => AttributeError "id"
           end, w).
Proof.
  intros Hs Hb. unfold ComposeForm_save.
  rewrite (bind_Ok _ _ _ _ _ Hs), (bind_Ok _ _ _ _ _ Hb).
  destruct v, parent; reflexivity.
Qed.

Lemma compose_raises
    (v : Django) (cfg : Settings) (d : gmap string string) (from to : Principal)
    (parent : option Message) (w : World) :
  acceptable d →
  compose v cfg d from to parent w
  = (Exception match v, parent with
               | from_1_7, _ => TypeError "invalid keyword argument"
               | _, Some _ => TypeError "isinstance"
               | _, None => AttributeError "id"
               end, w).
Proof.
  intros Ha. unfold compose. rewrite (is_valid_acceptable d Ha).
  by rewrite (ComposeForm_save_abstract v cfg _ from to parent w _ _
                (cleaned_subject d w Ha) (cleaned_body d w Ha)).
Qed.

(** C1, evaluated on the code.  With the notification app active, no call
    with a valid form notifies anybody: [save] raises when it instantiates,
    links or saves the abstract [Message], before it reaches the
    notifications, so neither the sender nor the recipient is told of a
    message, and no call succeeds. *)
Theorem notifying_call_notifies_nobody
    (v : Django) (cfg : Settings) (d : gmap string string) (from to : Principal)
    (parent : option Message) (w : World) :
  acceptable d →
  notification cfg = true →
  (∃ e, (compose v cfg d from to parent w).1 = Exception e)
  ∧ sent (compose v cfg d from to parent w).2 = sent w.
Proof.
  intros Ha _. rewrite (compose_raises v cfg d from to parent w Ha).
  split; [by eexists|done].
Qed.

Lemma notifying_call_notifies_nobody_witness :
  acceptable hello
  ∧ notification notify_on = true
  ∧ (∃ e, (compose before_1_7 notify_on hello alice bob None world0).1
          = Exception e)
  ∧ sent (compose before_1_7 notify_on hello alice bob None world0).2
    = sent world0.
Proof.
  split; [exact acceptable_hello|]. split; [reflexivity|].
  exact (notifying_call_notifies_nobody before_1_7 notify_on hello alice bob
           None world0 acceptable_hello eq_refl).
Defined.

(** C3, evaluated on the code.  A call with a valid form performs neither
    write: it ends in an exception with the table and the record of its
    writes as they were, the new message not persisted and, on a reply, the
    parent not updated. *)
Theorem valid_call_persists_nothing
    (v : Django) (cfg : Settings) (d : gmap string string) (from to : Principal)
    (parent : option Message) (w : World) :
  acceptable d →
  (∃ e, (compose v cfg d from to parent w).1 = Exception e)
  ∧ journal (compose v cfg d from to parent w).2 = journal w
  ∧ db (compose v cfg d from to parent w).2 = db w.
Proof.
  intros Ha. rewrite (compose_raises v cfg d from to parent w Ha).
  split; [by eexists|done].
Qed.

Lemma valid_call_persists_nothing_witness :
  acceptable hello
  ∧ (∃ e, (compose before_1_7 notify_off hello bob alice (Some first_message)
             world1).1 = Exception e)
  ∧ journal (compose before_1_7 notify_off hello bob alice
               (Some first_message) world1).2 = journal world1
  ∧ db (compose before_1_7 notify_off hello bob alice (Some first_message)
          world1).2 = db world1.
Proof.
  split; [exact acceptable_hello|].
  exact (valid_call_persists_nothing before_1_7 notify_off hello bob alice
           (Some first_message) world1 acceptable_hello).
Defined.

(** C4, evaluated on the code.  A reply with a valid form to a stored parent
    that was not answered before ends in an exception and leaves the parent's
    row with [replied_at] null; no row that points at the parent is added. *)
Theorem reply_leaves_parent_unanswered
    (v : Django) (cfg : Settings) (d : gmap string string) (from to : Principal)
    (parent : Message) (kp : Z) (w : World) :
  acceptable d →
  id parent = Some kp →
  rows (db w) !! kp = Some parent →
  replied_at parent = None →
  (∃ e, (compose v cfg d from to (Some parent) w).1 = Exception e)
  ∧ (∃ p', rows (db (compose v cfg d from to (Some parent) w).2) !! kp
           = Some p'
           ∧ replied_at p' = None)
  ∧ (∀ k c, rows (db (compose v cfg d from to (Some parent) w).2) !! k
            = Some c →
            parent_msg c = Some kp →
            rows (db w) !! k = Some c).
Proof.
  intros Ha Hid Hrow Hrep.
  rewrite (compose_raises v cfg d from to (Some parent) w Ha).
  split; [by eexists|]. split; [by exists parent|done].
Qed.

Lemma reply_leaves_parent_unanswered_witness :
  acceptable hello
  ∧ id first_message = Some 1%Z
  ∧ rows (db world1) !! 1%Z = Some first_message
  ∧ replied_at first_message = None
  ∧ (∃ e, (compose before_1_7 notify_off hello bob alice (Some first_message)
             world1).1 = Exception e)
  ∧ (∃ p', rows (db (compose before_1_7 notify_off hello bob alice
                       (Some first_message) world1).2) !! 1%Z
           = Some p'
           ∧ replied_at p' = None)
  ∧ (∀ k c, rows (db (compose before_1_7 notify_off hello bob alice
                        (Some first_message) world1).2) !! k
            = Some c →
            parent_msg c = Some 1%Z →
            rows (db world1) !! k = Some c).
Proof.
  assert (Hrow : rows (db world1) !! 1%Z = Some first_message).
  { simpl. apply lookup_singleton_eq. }
  split; [exact acceptable_hello|]. split; [reflexivity|].
  split; [exact Hrow|]. split; [reflexivity|].
  exact (reply_leaves_parent_unanswered before_1_7 notify_off hello bob alice
           first_message 1 world1 acceptable_hello eq_refl Hrow eq_refl).
Defined.

(** C5, evaluated on the code.  A call with a valid form returns no list and
    creates no message: whatever the settings and whether or not a parent is
    given, it ends in an exception and the world is as it was before. *)
Theorem valid_compose_returns_no_list
    (v : Django) (cfg : Settings) (d : gmap string string) (from to : Principal)
    (parent : option Message) (w : World) :
  acceptable d →
  (∀ l, (compose v cfg d from to parent w).1 ≠ Created l)
  ∧ (∃ e, (compose v cfg d from to parent w).1 = Exception e)
  ∧ (compose v cfg d from to parent w).2 = w.
Proof.
  intros Ha. rewrite (compose_raises v cfg d from to parent w Ha).
  split; [done|]. split; [by eexists|done].
Qed.

Lemma valid_compose_returns_no_list_witness :
  acceptable hello
  ∧ (∀ l, (compose from_1_7 notify_off hello alice bob None world0).1
          ≠ Created l)
  ∧ (∃ e, (compose from_1_7 notify_off hello alice bob None world0).1
          = Exception e)
  ∧ (compose from_1_7 notify_off hello alice bob None world0).2 = world0.
Proof.
  split; [exact acceptable_hello|].
  exact (valid_compose_returns_no_list from_1_7 notify_off hello alice bob
           None world0 acceptable_hello).
Defined.

(** C10, evaluated on the code.  For every principal and every world,
    [inbox_count_for] returns no count: naming the manager of the abstract
    class raises (or, where that manager is still handed out, the count query
    fails on the missing table), and the world is as it was. *)
Theorem inbox_count_for_raises (v : Django) (obj : Principal) (w : World) :
  inbox_count_for v obj w
  = (Raise match v with
           | before_1_5 => DatabaseError "django_messages_message"
           | before_1_7 | from_1_7 => AttributeError "objects"
           end, w).
Proof. destruct v; reflexivity. Qed.

(** * Further properties of the two files *)

Lemma StronglySorted_lookup_lt {A} (R : relation A) (l : list A)
    (i j : nat) (a b : A) :
  StronglySorted R l → (i < j)%nat →
  l !! i = Some a → l !! j = Some b → R a b.
Proof.
  intros Hs. revert i j. induction Hs as [|x l Hs IH Hall]; intros i j Hij Hi Hj.
  - by rewrite lookup_nil in Hi.
  - destruct j as [|j]; [lia|]. destruct i as [|i]; simpl in *.
    + injection Hi as ->. rewrite Forall_forall in Hall.
      apply Hall. by eapply list_elem_of_lookup_2.
    + apply (IH i j); [lia|done..].
Qed.

(** ** The listings *)

(** X1.  For every user [u] and every table, [outbox_for(u)] succeeds and
    lists exactly the stored messages whose sender is [u] and whose
    [sender_deleted_at] is null, each as often as it is stored; whether the
    recipient deleted the message plays no part. *)
Theorem outbox_for_exact (u : Principal) (t : Table) :
  ∃ q, outbox_for u = Ok q
    ∧ QuerySet_rows q t ≡ₚ filter (outbox_message u) (table_rows t)
    ∧ (∀ m, m ∈ QuerySet_rows q t ↔ in_table t m ∧ outbox_message u m).
Proof.
  eexists. split; [apply outbox_for_Ok|]. split.
  - rewrite QuerySet_rows_filter. simpl q_where.
    erewrite list_filter_iff; [reflexivity|]. intros m. apply outbox_clause.
  - intros m. rewrite elem_of_QuerySet_rows. simpl q_where.
    by rewrite outbox_clause.
Qed.

(** X2.  Every listing is in ascending order of [sent_at]: of two listed
    messages that both have a [sent_at], the one listed first was sent no
    later than the other. *)
Theorem listing_ordered_by_sent_at
    (q : QuerySet) (t : Table) (i j : nat) (a b : Message) (x y : Z) :
  (i < j)%nat →
  QuerySet_rows q t !! i = Some a →
  QuerySet_rows q t !! j = Some b →
  sent_at a = Some x →
  sent_at b = Some y →
  (x ≤ y)%Z.
Proof.
  intros Hij Ha Hb Hx Hy.
  assert (Hle : sent_at_le a b).
  { eapply StronglySorted_lookup_lt; [|exact Hij|exact Ha|exact Hb].
    unfold QuerySet_rows. apply StronglySorted_merge_sort; apply _. }
  unfold sent_at_le in Hle. by rewrite Hx, Hy in Hle.
Qed.

Lemma listing_ordered_by_sent_at_witness :
  (0 < 1)%nat
  ∧ QuerySet_rows {| q_where := CTrue |} (db world2) !! 0%nat
    = Some answered_message
  ∧ QuerySet_rows {| q_where := CTrue |} (db world2) !! 1%nat
    = Some reply_message
  ∧ sent_at answered_message = Some 1000%Z
  ∧ sent_at reply_message = Some 1002%Z
  ∧ (1000 ≤ 1002)%Z.
Proof.
  assert (Ha : QuerySet_rows {| q_where := CTrue |} (db world2) !! 0%nat
               = Some answered_message) by (vm_compute; reflexivity).
  assert (Hb : QuerySet_rows {| q_where := CTrue |} (db world2) !! 1%nat
               = Some reply_message) by (vm_compute; reflexivity).
  split; [lia|]. split; [exact Ha|]. split; [exact Hb|].
  split; [reflexivity|]. split; [reflexivity|].
  exact (listing_ordered_by_sent_at {| q_where := CTrue |} (db world2)
           0 1 answered_message reply_message 1000 1002
           ltac:(lia) Ha Hb eq_refl eq_refl).
Defined.


Lemma fresh_key (t : Table) (k : Z) :
  wf_table t → (next_pk t ≤ k)%Z → rows t !! k = None.
Proof.
  intros [_ Hwf] Hk. destruct (rows t !! k) eqn:Hl; [|done].
  apply Hwf in Hl. simpl in Hl. lia.
Qed.


(** ** The form *)

(** X11.  [save] reads the cleaned subject and body before it does anything
    else: on a form that was never cleaned it raises [AttributeError], on a
    cleaned form without a subject [KeyError] for the subject, and on one with
    a subject but without a body [KeyError] for the body; in each case the
    world is as it was, nothing written and nothing sent. *)
Theorem save_needs_cleaned_data
    (v : Django) (cfg : Settings) (self : ComposeForm) (from to : Principal)
    (parent : option Message) (w : World) :
  (cleaned_data self = None →
   ComposeForm_save v cfg self from to parent w
   = (Raise (AttributeError "cleaned_data"), w))
  ∧ (∀ cd, cleaned_data self = Some cd → cd !! "subject" = None →
     ComposeForm_save v cfg self from to parent w
     = (Raise (KeyError "subject"), w))
  ∧ (∀ cd, cleaned_data self = Some cd → is_Some (cd !! "subject") →
     cd !! "body" = None →
     ComposeForm_save v cfg self from to parent w
     = (Raise (KeyError "body"), w)).
Proof.
  unfold ComposeForm_save. split; [|split].
  - intros Hcd. unfold bind at 1. unfold cleaned at 1. by rewrite Hcd.
  - intros cd Hcd Hs. unfold bind at 1. unfold cleaned at 1.
    by rewrite Hcd, Hs.
  - intros cd Hcd [s Hs] Hb. unfold bind at 1. unfold cleaned at 1.
    rewrite Hcd, Hs. unfold ret at 1. unfold bind at 1. unfold cleaned at 1.
    by rewrite Hcd, Hb.
Qed.

Lemma save_needs_cleaned_data_witness :
  cleaned_data (bound_form hello) = None
  ∧ ComposeForm_save from_1_7 notify_on (bound_form hello) alice bob None
      world0
    = (Raise (AttributeError "cleaned_data"), world0)
  ∧ cleaned_data (full_clean (bound_form no_subject))
    = Some (<["body" := "Hello"]> ∅)
  ∧ (<["body" := "Hello"]> ∅ : gmap string string) !! "subject" = None
  ∧ ComposeForm_save from_1_7 notify_on (full_clean (bound_form no_subject))
      alice bob None world0
    = (Raise (KeyError "subject"), world0).
Proof.
  assert (Hcd : cleaned_data (full_clean (bound_form no_subject))
                = Some (<["body" := "Hello"]> ∅)) by (vm_compute; reflexivity).
  assert (Hs : (<["body" := "Hello"]> ∅ : gmap string string) !! "subject"
               = None) by (by rewrite lookup_insert_ne, lookup_empty).
  split; [reflexivity|].
  split.
  { exact (proj1 (save_needs_cleaned_data from_1_7 notify_on (bound_form hello)
                    alice bob None world0) eq_refl). }
  split; [exact Hcd|]. split; [exact Hs|].
  exact (proj1 (proj2 (save_needs_cleaned_data from_1_7 notify_on
                         (full_clean (bound_form no_subject))
                         alice bob None world0)) _ Hcd Hs).
Defined.

(** X12.  Cleaning the form checks the two fields one by one and reports each
    under its own name: the subject is [required] when it is empty and
    [max_length] when it has more than 120 characters, the body is [required]
    when it is empty, and nothing else is ever reported; a body of any length
    passes. *)
Theorem validation_errors_by_field (d : gmap string string) :
  errors (full_clean (bound_form d)) !! "subject"
  = (if decide (submitted d "subject" = "") then Some err_required
     else if decide (120 < String.length (submitted d "subject"))%nat
          then Some err_max_length else None)
  ∧ errors (full_clean (bound_form d)) !! "body"
    = (if decide (submitted d "body" = "") then Some err_required else None)
  ∧ (∀ name, name ≠ "subject" → name ≠ "body" →
     errors (full_clean (bound_form d)) !! name = None).
Proof.
  unfold full_clean, bound_form, submitted. cbn [data].
  unfold clean_fields, ComposeForm_fields, CharField_clean.
  cbn [max_length required].
  destruct (decide (default "" (d !! "body") = "")) as [Hb|Hb];
    [rewrite (bool_decide_eq_true_2 _ Hb)
    |rewrite (bool_decide_eq_false_2 _ Hb)];
    (destruct (decide (default "" (d !! "subject") = "")) as [Hs|Hs];
     [rewrite (bool_decide_eq_true_2 _ Hs)
     |rewrite (bool_decide_eq_false_2 _ Hs);
      destruct (decide (120 < String.length (default "" (d !! "subject")))%nat)
        as [Hl|Hl];
      [rewrite (proj2 (Nat.ltb_lt _ _) Hl)
      |rewrite (proj2 (Nat.ltb_ge _ _) (proj1 (Nat.nlt_ge _ _) Hl))]]);
    cbn [errors]; (split; [|split]);
    try (intros name Hn1 Hn2);
    repeat (rewrite lookup_insert_eq || rewrite lookup_insert_ne by done);
    try rewrite lookup_empty; reflexivity.
Qed.

(** ** Settings *)

(** X13.  The two notification variants never run together: the notification
    app is used by the form exactly when it is installed and notifications are
    not switched off, the e-mail fallback is connected exactly when it is not
    installed and notifications are not switched off, and with
    [DJANGO_MESSAGES_NOTIFY] false neither is. *)
Theorem one_notification_variant (cfg : Settings) :
  notification cfg && email_fallback cfg = false
  ∧ notification cfg || email_fallback cfg
    = default true (DJANGO_MESSAGES_NOTIFY cfg)
  ∧ (DJANGO_MESSAGES_NOTIFY cfg = Some false →
     notification cfg = false ∧ email_fallback cfg = false).
Proof.
  unfold notification, email_fallback.
  destruct (bool_decide ("notification" ∈ INSTALLED_APPS cfg)),
    (DJANGO_MESSAGES_NOTIFY cfg) as [[|]|]; simpl; repeat split; done.
Qed.

Lemma one_notification_variant_witness :
  DJANGO_MESSAGES_NOTIFY
    {| INSTALLED_APPS := ["notification"];
       DJANGO_MESSAGES_NOTIFY := Some false |} = Some false
  ∧ notification {| INSTALLED_APPS := ["notification"];
                    DJANGO_MESSAGES_NOTIFY := Some false |} = false
  ∧ email_fallback {| INSTALLED_APPS := ["notification"];
                      DJANGO_MESSAGES_NOTIFY := Some false |} = false.
Proof.
  split; [reflexivity|].
  exact (proj2 (proj2 (one_notification_variant
                         {| INSTALLED_APPS := ["notification"];
                            DJANGO_MESSAGES_NOTIFY := Some false |}))
           eq_refl).
Defined.

(** ** Keys *)

(** X15.  [save] tells a saved message from an unsaved one by the truth of
    its key, so a message whose key is 0 is taken for unsaved: each save reads
    the clock and overwrites [sent_at], while the row still goes under key 0.
    Under any other key [save] leaves [sent_at] alone and does not read the
    clock. *)
Theorem save_rereads_clock_on_key_zero (m : Message) (k : Z) (w : World) :
  id m = Some k →
  ∃ m' w',
    Message_save m w = (Ok m', w')
    ∧ rows (db w') !! k = Some m'
    ∧ id m' = Some k
    ∧ sent_at m'
      = (if decide (k = 0%Z) then Some (clock w (ticks w)) else sent_at m)
    ∧ ticks w' = (if decide (k = 0%Z) then S (ticks w) else ticks w).
Proof.
  intros Hid.
  destruct (Message_save_keyed m k w Hid) as (m' & Hsave & Hm').
  assert (Hz : not_id (Some k) = if decide (k = 0%Z) then true else false).
  { simpl. destruct (decide (k = 0%Z));
      [by apply bool_decide_eq_true_2|by apply bool_decide_eq_false_2]. }
  rewrite Hz in Hsave, Hm'.
  eexists m', _. split; [exact Hsave|]. simpl.
  split; [apply lookup_insert_eq|].
  destruct (decide (k = 0%Z)); subst m'; by destruct m.
Qed.

Lemma save_rereads_clock_on_key_zero_witness :
  id (set_id (Some 0%Z) first_message) = Some 0%Z
  ∧ ∃ m' w',
      Message_save (set_id (Some 0%Z) first_message) world1 = (Ok m', w')
      ∧ rows (db w') !! 0%Z = Some m'
      ∧ id m' = Some 0%Z
      ∧ sent_at m'
        = (if decide (0%Z = 0%Z) then Some (clock world1 (ticks world1))
           else sent_at (set_id (Some 0%Z) first_message))
      ∧ ticks w'
        = (if decide (0%Z = 0%Z) then S (ticks world1) else ticks world1).
Proof.
  split; [reflexivity|].
  exact (save_rereads_clock_on_key_zero (set_id (Some 0%Z) first_message) 0
           world1 eq_refl).
Defined.

Lemma validation_errors_by_field_witness :
  "recipient" ≠ "subject"
  ∧ "recipient" ≠ "body"
  ∧ errors (full_clean (bound_form no_subject)) !! "recipient" = None.
Proof.
  assert (H1 : "recipient" ≠ "subject") by done.
  assert (H2 : "recipient" ≠ "body") by done.
  split; [exact H1|]. split; [exact H2|].
  exact (proj2 (proj2 (validation_errors_by_field no_subject))
           "recipient" H1 H2).
Defined.

(** ** What [ComposeForm.save] does *)

(** X18.  [ComposeForm.save] never returns a list: whatever the form holds,
    whoever the sender and the recipient are and whether or not a parent is
    given, it raises, and the world is as it was before the call, with no row
    written and no notification sent. *)
Theorem save_never_returns
    (v : Django) (cfg : Settings) (self : ComposeForm) (from to : Principal)
    (parent : option Message) (w : World) :
  ∃ e, ComposeForm_save v cfg self from to parent w = (Raise e, w).
Proof.
  destruct (cleaned self "subject" w) as [[s|e] w1] eqn:Hs.
  - assert (w1 = w) as ->.
    { unfold cleaned in Hs. destruct (cleaned_data self) as [cd|]; [|done].
      destruct (cd !! "subject"); by injection Hs. }
    destruct (cleaned self "body" w) as [[b|e] w2] eqn:Hb.
    + assert (w2 = w) as ->.
      { unfold cleaned in Hb. destruct (cleaned_data self) as [cd|]; [|done].
        destruct (cd !! "body"); by injection Hb. }
      eexists. apply (ComposeForm_save_abstract _ _ _ _ _ _ _ s b Hs Hb).
    + exists e. unfold ComposeForm_save. rewrite (bind_Ok _ _ _ _ _ Hs).
      unfold bind at 1. rewrite Hb. f_equal.
      unfold cleaned in Hb. destruct (cleaned_data self) as [cd|].
      * destruct (cd !! "body"); by injection Hb.
      * by injection Hb.
  - exists e. unfold ComposeForm_save. unfold bind at 1. rewrite Hs. f_equal.
    unfold cleaned in Hs. destruct (cleaned_data self) as [cd|].
    + destruct (cd !! "subject"); by injection Hs.
    + by injection Hs.
Qed.

(** X19.  The notification statements at the end of [save], run with the
    notification app active on any message, notify the sender, with
    [messages_replied] for a reply and [messages_sent] otherwise, and then
    raise [NameError] for the name [r], which neither the locals of [save]
    nor the module bind; the recipient is not notified. *)
Theorem notifications_stop_at_unbound_r
    (cfg : Settings) (from to : Principal) (parent : option Message)
    (subj text : string) (message_list : list Message) (msg : Message)
    (w : World) :
  notification cfg = true →
  send_notifications cfg
    (save_locals from to parent subj text message_list msg) parent msg w
  = (Raise (NameError "r"),
     {| db := db w; clock := clock w; ticks := ticks w; journal := journal w;
        sent := sent w ++
                [{| n_users := [PyPrincipal from];
                    n_label := match parent with
                               | Some _ => "messages_replied"
                               | None => "messages_sent"
                               end;
                    n_message := msg |}] |}).
Proof.
  intros Hn. unfold send_notifications. rewrite Hn.
  destruct parent; reflexivity.
Qed.

Lemma notifications_stop_at_unbound_r_witness :
  notification notify_on = true
  ∧ send_notifications notify_on
      (save_locals alice bob None "Hi" "Hello" [first_message] first_message)
      None first_message world1
    = (Raise (NameError "r"),
       {| db := db world1; clock := clock world1; ticks := ticks world1;
          journal := journal world1;
          sent := sent world1 ++
                  [{| n_users := [PyPrincipal alice];
                      n_label := "messages_sent";
                      n_message := first_message |}] |}).
Proof.
  split; [reflexivity|].
  exact (notifications_stop_at_unbound_r notify_on alice bob None "Hi" "Hello"
           [first_message] first_message world1 eq_refl).
Defined.

(** ** Saving on a concrete subclass *)

(** X10.  Setting [recipient_deleted_at] on a stored message and saving it
    writes the row back under its key, leaves every other row alone, and takes
    the message out of every [inbox_for] listing. *)
Theorem recipient_delete_leaves_inbox
    (m : Message) (k t : Z) (w : World) :
  id m = Some k →
  rows (db w) !! k = Some m →
  ∃ m' w',
    Message_save (set_recipient_deleted_at (Some t) m) w = (Ok m', w')
    ∧ rows (db w') !! k = Some m'
    ∧ recipient_deleted_at m' = Some t
    ∧ (∀ j, j ≠ k → rows (db w') !! j = rows (db w) !! j)
    ∧ (∀ u q, inbox_for u = Ok q → m' ∉ QuerySet_rows q (db w')).
Proof.
  intros Hid Hrow.
  destruct (Message_save_keyed (set_recipient_deleted_at (Some t) m) k w)
    as (m' & Hsave & Hm'); [by destruct m|].
  assert (Hdel : recipient_deleted_at m' = Some t).
  { subst m'. destruct (not_id (Some k)); by destruct m. }
  eexists m', _. split; [exact Hsave|].
  split; [simpl; apply lookup_insert_eq|]. split; [exact Hdel|].
  split; [intros j Hj; simpl; by rewrite lookup_insert_ne|].
  intros u q Hq. rewrite inbox_for_Ok in Hq. injection Hq as <-.
  rewrite elem_of_QuerySet_rows. simpl q_where. rewrite inbox_clause.
  intros [_ [_ Hnone]]. congruence.
Qed.

Lemma recipient_delete_leaves_inbox_witness :
  id first_message = Some 1%Z
  ∧ rows (db world1) !! 1%Z = Some first_message
  ∧ ∃ m' w',
      Message_save (set_recipient_deleted_at (Some 1005%Z) first_message)
        world1 = (Ok m', w')
      ∧ rows (db w') !! 1%Z = Some m'
      ∧ recipient_deleted_at m' = Some 1005%Z
      ∧ (∀ j, j ≠ 1%Z → rows (db w') !! j = rows (db world1) !! j)
      ∧ (∀ u q, inbox_for u = Ok q → m' ∉ QuerySet_rows q (db w')).
Proof.
  assert (Hrow : rows (db world1) !! 1%Z = Some first_message).
  { simpl. apply lookup_singleton_eq. }
  split; [reflexivity|]. split; [exact Hrow|].
  exact (recipient_delete_leaves_inbox first_message 1 1005 world1
           eq_refl Hrow).
Defined.



(** X21.  [Message.save] writes one row and changes no other: in a well-formed
    table every row stored under a key that is not the saved instance's is the
    same after the save, also when the instance has no key yet and gets the
    next one. *)
Theorem Message_save_leaves_other_rows
    (m : Message) (w : World) (j : Z) (x : Message) :
  wf_table (db w) →
  rows (db w) !! j = Some x →
  id m ≠ Some j →
  ∃ m' w',
    Message_save m w = (Ok m', w')
    ∧ rows (db w') !! j = Some x
    ∧ id m' ≠ Some j.
Proof.
  intros Hwf Hj Hid.
  destruct (Message_save_writes m w)
    as (k & m' & w' & Hsave & _ & Hr & _ & Hi & Hk & _).
  exists m', w'. split; [exact Hsave|].
  assert (Hne : k ≠ j).
  { subst k. destruct (id m) as [i|]; simpl; [congruence|].
    intros Heq. rewrite (fresh_key (db w) j Hwf) in Hj; [done|lia]. }
  split; [rewrite Hr; by rewrite lookup_insert_ne|].
  rewrite Hi. congruence.
Qed.

Lemma Message_save_leaves_other_rows_witness :
  wf_table (db world1)
  ∧ rows (db world1) !! 1%Z = Some first_message
  ∧ id (Message_init bob alice "Re" "Hi") ≠ Some 1%Z
  ∧ ∃ m' w',
      Message_save (Message_init bob alice "Re" "Hi") world1 = (Ok m', w')
      ∧ rows (db w') !! 1%Z = Some first_message
      ∧ id m' ≠ Some 1%Z.
Proof.
  assert (Hrow : rows (db world1) !! 1%Z = Some first_message).
  { simpl. apply lookup_singleton_eq. }
  assert (Hid : id (Message_init bob alice "Re" "Hi") ≠ Some 1%Z) by done.
  split; [exact wf_table_world1|]. split; [exact Hrow|]. split; [exact Hid|].
  exact (Message_save_leaves_other_rows (Message_init bob alice "Re" "Hi")
           world1 1 first_message wf_table_world1 Hrow Hid).
Defined.

(** X22.  A message saved with neither delete mark set is listed at once in
    its recipient's inbox and in its sender's outbox. *)
Theorem saved_message_is_listed (m : Message) (w : World) :
  recipient_deleted_at m = None →
  sender_deleted_at m = None →
  ∃ m' w' qi qo,
    Message_save m w = (Ok m', w')
    ∧ inbox_for (recipient m) = Ok qi
    ∧ outbox_for (sender m) = Ok qo
    ∧ m' ∈ QuerySet_rows qi (db w')
    ∧ m' ∈ QuerySet_rows qo (db w').
Proof.
  intros Hr Hs.
  destruct (Message_save_writes m w)
    as (k & m' & w' & Hsave & _ & Hrows & _ & Hi & _).
  assert (Hsame : recipient m' = recipient m ∧ sender m' = sender m
                  ∧ recipient_deleted_at m' = None
                  ∧ sender_deleted_at m' = None).
  { revert Hsave. unfold Message_save, bind, now, ret, Model_save.
    destruct (not_id (id m)); intros [= <- _]; by destruct m. }
  destruct Hsame as (Hrec & Hsen & Hrd & Hsd).
  eexists m', w', _, _. split; [exact Hsave|].
  split; [apply inbox_for_Ok|]. split; [apply outbox_for_Ok|].
  assert (Hin : in_table (db w') m').
  { exists k. rewrite Hrows. apply lookup_insert_eq. }
  split; apply elem_of_QuerySet_rows; (split; [exact Hin|]); cbn [q_where].
  - apply (inbox_clause (recipient m) m'). by split.
  - apply (outbox_clause (sender m) m'). by split.
Qed.

Lemma saved_message_is_listed_witness :
  recipient_deleted_at (Message_init bob alice "Re" "Hi") = None
  ∧ sender_deleted_at (Message_init bob alice "Re" "Hi") = None
  ∧ ∃ m' w' qi qo,
      Message_save (Message_init bob alice "Re" "Hi") world1 = (Ok m', w')
      ∧ inbox_for (recipient (Message_init bob alice "Re" "Hi")) = Ok qi
      ∧ outbox_for (sender (Message_init bob alice "Re" "Hi")) = Ok qo
      ∧ m' ∈ QuerySet_rows qi (db w')
      ∧ m' ∈ QuerySet_rows qo (db w').
Proof.
  split; [reflexivity|]. split; [reflexivity|].
  exact (saved_message_is_listed (Message_init bob alice "Re" "Hi") world1
           eq_refl eq_refl).
Defined.
